(** * Smart Ad Planner: progress tracking, plan pipeline and reach analytics

    A shallow embedding of
      - [app/utils/analytics.py]        (module [Analytics]),
      - [app/progress_tracker.py]       (module [Tracker]),
      - [app/api/plan_with_progress.py] (modules [Stream] and [Pipeline]),
    together with the properties of these programs.

    Conventions of the embedding.
      - Python [int] is [Z]; a Python [float] is an exact rational [Q]
        (every finite float is one), and the arithmetic on floats is the
        exact arithmetic on [Q]: the rounding error of a binary operation is
        left out, so a value that sits exactly on a rounding tie here may be
        rounded the other way by Python.  [math.pow], whose value is
        irrational in general, is the real power function [Rpower] on [R].
      - Python [str] is [string], read as ASCII text.
      - A function that can raise returns a [result].
      - A Python object that is shared (an [asyncio.Queue]) lives in a store
        and is named by a reference. *)

From Stdlib Require Import ZArith QArith Qround Qabs Reals Lra Lia Sorted.
From Stdlib Require Import String Ascii List DecimalString.
From stdpp Require Import gmap strings list.

Local Open Scope string_scope.
Local Open Scope list_scope.
Local Open Scope Z_scope.

(** ** Python values and exceptions *)

Module Py.

(** The exceptions the modelled code can raise; each carries [str(e)]
    ([Exception] stands for any other class). *)
Inductive exn : Type :=
| ValueError (msg : string)
| ZeroDivisionError (msg : string)
| Exception (msg : string)
| HTTPException (status_code : Z) (detail : string).

Definition str_exn (e : exn) : string :=
  match e with
  | ValueError m | ZeroDivisionError m | Exception m => m
  | HTTPException _ detail => detail
  end.

Inductive result (A : Type) : Type :=
| Ok (a : A)
| Raise (e : exn).
Arguments Ok {A} a.
Arguments Raise {A} e.

Definition bind {A B} (r : result A) (k : A -> result B) : result B :=
  match r with
  | Ok a => k a
  | Raise e => Raise e
  end.

(** [x / y] on numbers: true division, which raises on a zero divisor. *)
Definition truediv (x y : Q) : result Q :=
  if Qeq_bool y 0 then Raise (ZeroDivisionError "division by zero")
  else Ok (x / y)%Q.

(** [x > 0] on a float *)
Definition positive (x : Q) : bool :=
  match Qcompare x 0 with
  | Gt => true
  | _ => false
  end.

(** [int(x)] on a float: truncation toward zero. *)
Definition int_of_float (x : Q) : Z := Z.quot (Qnum x) (Z.pos (Qden x)).

(** [round(x)] to an integer, ties to even. *)
Definition round_half_even (x : Q) : Z :=
  let f := Qfloor x in
  match Qcompare (x - inject_Z f) (1 # 2) with
  | Lt => f
  | Gt => f + 1
  | Eq => if Z.even f then f else f + 1
  end.

(** [round(x, ndigits)] on a float. *)
Definition round (x : Q) (ndigits : nat) : Q :=
  let scale := Z.pow 10 (Z.of_nat ndigits) in
  Qmake (round_half_even (x * inject_Z scale)) (Z.to_pos scale).

(** *** Strings *)

Definition is_digit (c : ascii) : bool :=
  let n := nat_of_ascii c in (48 <=? n)%nat && (n <=? 57)%nat.

Definition is_comma (c : ascii) : bool := Ascii.eqb c ","%char.

Definition lower_ascii (c : ascii) : ascii :=
  let n := nat_of_ascii c in
  if (65 <=? n)%nat && (n <=? 90)%nat then ascii_of_nat (n + 32) else c.

(** [s.lower()] *)
Fixpoint lower (s : string) : string :=
  match s with
  | EmptyString => EmptyString
  | String c r => String (lower_ascii c) (lower r)
  end.

(** [sub in s] *)
Fixpoint contains (sub s : string) : bool :=
  String.prefix sub s ||
  match s with
  | EmptyString => false
  | String _ r => contains sub r
  end.

(** [s.replace(c, '')] for a one-character [c] *)
Fixpoint remove_char (c : ascii) (s : string) : string :=
  match s with
  | EmptyString => EmptyString
  | String d r =>
      if Ascii.eqb d c then remove_char c r else String d (remove_char c r)
  end.

Fixpoint all_chars (p : ascii -> bool) (s : string) : bool :=
  match s with
  | EmptyString => true
  | String c r => p c && all_chars p r
  end.

Fixpoint any_char (p : ascii -> bool) (s : string) : bool :=
  match s with
  | EmptyString => false
  | String c r => p c || any_char p r
  end.

Definition digit_value (c : ascii) : Z := Z.of_nat (nat_of_ascii c) - 48.

Fixpoint digits_value (acc : Z) (s : string) : Z :=
  match s with
  | EmptyString => acc
  | String c r => digits_value (10 * acc + digit_value c) r
  end.

(** [int(s)] on a string of decimal digits; the empty string, and any string
    with another character, is an invalid literal.  (Python also accepts a
    sign, surrounding blanks and underscores, and refuses more than 4300
    digits; the tokens this program converts hold digits only.) *)
Definition int_of_str (s : string) : result Z :=
  match s with
  | EmptyString => Raise (ValueError "invalid literal for int() with base 10: ''")
  | _ =>
      if all_chars is_digit s then Ok (digits_value 0 s)
      else Raise (ValueError ("invalid literal for int() with base 10: '" +:+ s +:+ "'"))
  end.

(** [re.findall(r'[\d,]+', s)]: the maximal runs of digits and commas, from
    left to right.  [tok] is the run being read. *)
Definition in_class (c : ascii) : bool := is_digit c || is_comma c.

Definition flush (tok : string) (l : list string) : list string :=
  match tok with
  | EmptyString => l
  | _ => tok :: l
  end.

Fixpoint findall_from (tok s : string) : list string :=
  match s with
  | EmptyString => flush tok []
  | String c r =>
      if in_class c then findall_from (tok +:+ String c EmptyString) r
      else flush tok (findall_from EmptyString r)
  end.

Definition findall (s : string) : list string := findall_from EmptyString s.

(** [f"{n:,}"]: decimal digits in groups of three. *)
Fixpoint group3 (k : nat) (rev_digits : list ascii) (acc : string) : string :=
  match rev_digits with
  | [] => acc
  | d :: r =>
      match k with
      | O => group3 2 r (String d (String ","%char acc))
      | S k' => group3 k' r (String d acc)
      end
  end.

Definition format_thousands (n : Z) : string :=
  let digits := NilZero.string_of_uint (N.to_uint (Z.abs_N n)) in
  let body := group3 3 (rev (list_ascii_of_string digits)) EmptyString in
  if (n <? 0)%Z then String "-"%char body else body.

End Py.

(** ** [app/utils/analytics.py] *)

Module Analytics.
Import Py.

(** The dictionary [calculate_reach_percentage] returns has one of two
    shapes: the early return of lines 23-28, or the full one of lines 76-83. *)
Inductive reach_analytics : Type :=
| ReachUnknown (reach_min reach_max : Z) (percentage population_estimate : string)
| ReachKnown (reach_min reach_max target_population : Z)
    (percentage_min percentage_max : Q) (percentage_display : string).

(** [d['reach_min']] and [d['reach_max']]: both shapes have the keys. *)
Definition reach_min_of (d : reach_analytics) : Z :=
  match d with
  | ReachUnknown lo _ _ _ | ReachKnown lo _ _ _ _ _ => lo
  end.

Definition reach_max_of (d : reach_analytics) : Z :=
  match d with
  | ReachUnknown _ hi _ _ | ReachKnown _ hi _ _ _ _ => hi
  end.

(** The table of lines 36-48, in the order the dictionary is written
    (a Python dict iterates in insertion order). *)
Definition population_estimates : list (string * Z) :=
  [ ("new york", 8000000); ("los angeles", 5000000); ("chicago", 3500000);
    ("san francisco", 1200000); ("seattle", 900000); ("boston", 800000);
    ("portland", 700000); ("denver", 800000); ("austin", 1000000);
    ("miami", 900000) ].

(** The loop of lines 54-57: the first city that occurs in the location. *)
Fixpoint match_location (table : list (string * Z)) (location_lower : string)
  : option Z :=
  match table with
  | [] => None
  | (city, pop) :: rest =>
      if contains city location_lower then Some pop
      else match_location rest location_lower
  end.

(** [repr] of a float that [round(_, 1)] returned, in positional notation
    (Python switches to exponent notation from 1e16 on). *)
Definition repr_1 (x : Q) : string :=
  let t := round_half_even (x * 10) in
  let body :=
    NilZero.string_of_uint (N.to_uint (Z.abs_N (Z.quot t 10))) +:+ "." +:+
    NilZero.string_of_uint (N.to_uint (Z.abs_N (Z.rem t 10))) in
  if (t <? 0)%Z then "-" +:+ body else body.

Definition calculate_reach_percentage
    (reach_string location : string) (is_local : bool) : result reach_analytics :=
  let numbers := findall reach_string in
  match numbers with
  | [] => Ok (ReachUnknown 0 0 "Unknown" "Unknown")
  | n0 :: more =>
      bind (int_of_str (remove_char ","%char n0)) (fun reach_min =>
      bind (match more with
            | n1 :: _ => int_of_str (remove_char ","%char n1)
            | [] => Ok reach_min
            end) (fun reach_max =>
      let location_lower := lower location in
      let population :=
        match match_location population_estimates location_lower with
        | Some pop => pop
        | None => if is_local then 500000 else 10000000
        end in
      let target_population :=
        if is_local then int_of_float (inject_Z population * (25 # 100))%Q
        else population in
      bind (truediv (inject_Z reach_min) (inject_Z target_population))
        (fun ratio_min =>
      let percentage_min := (ratio_min * 100)%Q in
      bind (truediv (inject_Z reach_max) (inject_Z target_population))
        (fun ratio_max =>
      let percentage_max := (ratio_max * 100)%Q in
      Ok (ReachKnown reach_min reach_max target_population
            (round percentage_min 1) (round percentage_max 1)
            (repr_1 (round percentage_min 1) +:+ "%-" +:+
             repr_1 (round percentage_max 1) +:+ "%"))))))
  end.

(** [math.pow(x, 1.3)]: a negative base with a fractional exponent is a
    domain error; [0.0 ** 1.3] is [0.0]. *)
Definition exponent : R := (13 / 10)%R.

Definition math_pow (x : Q) : result R :=
  match Qcompare x 0 with
  | Lt => Raise (ValueError "math domain error")
  | Eq => Ok 0%R
  | Gt => Ok (Rpower (Q2R x) exponent)
  end.

(** [int(x)] on the real value of a float expression: truncation toward
    zero ([Int_part] is the floor). *)
Definition int_of_real (x : R) : Z :=
  if Rle_dec 0 x then Int_part x else (- Int_part (- x))%Z.

(** The dictionary [calculate_budget_scaling] returns. *)
Record budget_scaling : Type := {
  current_budget : Z;
  recommended_budget : Z;
  budget_increase : Z;
  budget_increase_percent : Q;
  current_reach_range : string;
  target_reach_range : string;
  current_cost_per_reach : Q;
  new_cost_per_reach : Q;
  efficiency_change_percent : Q
}.

(** [((a / b) - 1) * 100] rounded to one decimal (lines 133-134, 140-141). *)
Definition change_percent (a b : Q) : result Q :=
  bind (truediv a b) (fun ratio => Ok (round ((ratio - 1) * 100)%Q 1)).

Definition calculate_budget_scaling
    (current_budget current_reach_min current_reach_max : Z)
    (target_multiplier : Q) : result budget_scaling :=
  let current_reach_avg : Q :=
    (inject_Z (current_reach_min + current_reach_max) / 2)%Q in
  let target_reach_min :=
    int_of_float (inject_Z current_reach_min * target_multiplier)%Q in
  let target_reach_max :=
    int_of_float (inject_Z current_reach_max * target_multiplier)%Q in
  let target_reach_avg :=
    int_of_float (current_reach_avg * target_multiplier)%Q in
  bind (math_pow target_multiplier) (fun budget_multiplier =>
  let recommended_budget :=
    int_of_real (IZR current_budget * budget_multiplier)%R in
  bind (if positive current_reach_avg
        then truediv (inject_Z current_budget) current_reach_avg
        else Ok 0%Q) (fun current_cost_per_reach =>
  bind (if (target_reach_avg >? 0)%Z
        then truediv (inject_Z recommended_budget) (inject_Z target_reach_avg)
        else Ok 0%Q) (fun new_cost_per_reach =>
  bind (if (current_budget >? 0)%Z
        then change_percent (inject_Z recommended_budget)
               (inject_Z current_budget)
        else Ok 0%Q) (fun increase_percent =>
  bind (if positive current_cost_per_reach
        then change_percent new_cost_per_reach current_cost_per_reach
        else Ok 0%Q) (fun efficiency_percent =>
  Ok {| current_budget := current_budget;
        recommended_budget := recommended_budget;
        budget_increase := recommended_budget - current_budget;
        budget_increase_percent := increase_percent;
        current_reach_range :=
          format_thousands current_reach_min +:+ "-" +:+
          format_thousands current_reach_max;
        target_reach_range :=
          format_thousands target_reach_min +:+ "-" +:+
          format_thousands target_reach_max;
        current_cost_per_reach := round current_cost_per_reach 2;
        new_cost_per_reach := round new_cost_per_reach 2;
        efficiency_change_percent := efficiency_percent |}))))).


End Analytics.

(** ** [app/progress_tracker.py] *)

Module Tracker.
Import Py.

(** The dictionary [update_progress] builds (lines 36-44). *)
Record update : Type := {
  step : Z;
  total_steps : Z;
  progress_percent : Z;
  agent_name : string;
  status : string;
  message : string;
  timestamp : string
}.

(** An [asyncio.Queue] is an object: a subscriber holds a reference to it,
    and so may the [subscribers] dictionary.  [queues] is the store of the
    queue objects created so far, a reference to a queue is its index there
    (a [nat]); the content of a queue is the list of the items put and not
    yet taken, oldest first. *)

Record ProgressTracker : Type := {
  progress_data : gmap string update;
  subscribers : gmap string nat;
  queues : list (list update)
}.

(** [ProgressTracker()] *)
Definition init : ProgressTracker :=
  {| progress_data := ∅; subscribers := ∅; queues := [] |}.

(** [subscribe]: a new queue, recorded for the session, and returned. *)
Definition subscribe (t : ProgressTracker) (session_id : string)
  : ProgressTracker * nat :=
  let queue := length (queues t) in
  ({| progress_data := progress_data t;
      subscribers := <[session_id := queue]> (subscribers t);
      queues := queues t ++ [[]] |}, queue).

Definition unsubscribe (t : ProgressTracker) (session_id : string)
  : ProgressTracker :=
  match subscribers t !! session_id with
  | Some _ =>
      {| progress_data := progress_data t;
         subscribers := delete session_id (subscribers t);
         queues := queues t |}
  | None => t
  end.

(** [queue.put(item)] on an unbounded queue. *)
Definition put (t : ProgressTracker) (queue : nat) (item : update)
  : ProgressTracker :=
  {| progress_data := progress_data t;
     subscribers := subscribers t;
     queues := alter (fun items => items ++ [item]) queue (queues t) |}.

(** [queue.get_nowait()]: the oldest item, if there is one. *)
Definition get (t : ProgressTracker) (queue : nat)
  : option (update * ProgressTracker) :=
  match queues t !! queue with
  | Some (item :: items) =>
      Some (item, {| progress_data := progress_data t;
                     subscribers := subscribers t;
                     queues := <[queue := items]> (queues t) |})
  | _ => None
  end.

(** [int((step / total_steps) * 100)].  The quotient is exact here; the
    binary quotient of Python agrees with it when [total_steps] is a power
    of two, as the 8 of [AGENT_STEPS] is. *)
Definition percent (step total_steps : Z) : result Z :=
  bind (truediv (inject_Z step) (inject_Z total_steps))
    (fun ratio => Ok (int_of_float (ratio * 100)%Q)).

Definition make_update (step total_steps progress_percent : Z)
    (agent_name status message now : string) : update :=
  {| step := step;
     total_steps := total_steps;
     progress_percent := progress_percent;
     agent_name := agent_name;
     status := status;
     message := message;
     timestamp := now |}.

(** Lines 46-51: store the latest update, hand it to the subscriber. *)
Definition publish (t : ProgressTracker) (session_id : string) (u : update)
  : ProgressTracker :=
  let t1 := {| progress_data := <[session_id := u]> (progress_data t);
               subscribers := subscribers t;
               queues := queues t |} in
  match subscribers t1 !! session_id with
  | Some queue => put t1 queue u
  | None => t1
  end.

(** [update_progress]; [now] is what [datetime.now().isoformat()] returned.
    The update is returned with the tracker, for the record of the caller. *)
Definition update_progress (t : ProgressTracker) (session_id : string)
    (step total_steps : Z) (agent_name status message now : string)
  : result (ProgressTracker * update) :=
  bind (percent step total_steps) (fun progress_percent =>
  let update :=
    make_update step total_steps progress_percent agent_name status message now in
  Ok (publish t session_id update, update)).

Definition get_progress (t : ProgressTracker) (session_id : string)
  : option update := progress_data t !! session_id.

(** [AGENT_STEPS] *)
Record step_info : Type := {
  si_step : Z;
  si_name : string;
  si_icon : string;
  si_description : string
}.

Definition AGENT_STEPS : list step_info :=
  [ {| si_step := 1; si_name := "RAGAgent"; si_icon := "🔍";
       si_description := "Retrieving historical insights from vector database..." |};
    {| si_step := 2; si_name := "PersonaAgent"; si_icon := "👥";
       si_description := "Generating 3 detailed customer personas..." |};
    {| si_step := 3; si_name := "LocationAgent"; si_icon := "📍";
       si_description := "Analyzing location demographics and optimal radius..." |};
    {| si_step := 4; si_name := "CompetitorAgent"; si_icon := "🏆";
       si_description := "Researching competitors and market opportunities..." |};
    {| si_step := 5; si_name := "PlannerAgent"; si_icon := "💰";
       si_description := "Creating 3 budget scenarios with channel allocation..." |};
    {| si_step := 6; si_name := "CreativeAgent"; si_icon := "🎨";
       si_description := "Generating creative assets and ad copy..." |};
    {| si_step := 7; si_name := "PerformanceAgent"; si_icon := "📈";
       si_description := "Predicting performance metrics and ROI..." |};
    {| si_step := 8; si_name := "CriticAgent"; si_icon := "✅";
       si_description := "Evaluating plan quality and scoring..." |} ].

(** A sequence of publications, each to its session, oldest first. *)
Definition publish_seq (t : ProgressTracker) (evs : list (string * update))
  : ProgressTracker :=
  fold_left (fun t ev => publish t ev.1 ev.2) evs t.

(** What the holder of [queue] has not read yet. *)
Definition pending (t : ProgressTracker) (queue : nat) : list update :=
  default [] (queues t !! queue).

(** The updates of [evs] published to [session_id]. *)
Definition updates_for (session_id : string) (evs : list (string * update))
  : list update :=
  (filter (fun ev => ev.1 = session_id) evs).*2.

(** The updates of [evs] published to a session whose subscriber, in [t],
    is [queue]. *)
Definition delivered_to (t : ProgressTracker) (queue : nat)
    (evs : list (string * update)) : list update :=
  (filter (fun ev => subscribers t !! ev.1 = Some queue) evs).*2.

(** The trackers the operations build: a recorded subscriber is a queue of
    the store, and no queue is recorded for two sessions. *)
Record wf (t : ProgressTracker) : Prop := {
  wf_bound : forall s q,
    subscribers t !! s = Some q -> (q < length (queues t))%nat;
  wf_inj : forall s s' q,
    subscribers t !! s = Some q -> subscribers t !! s' = Some q -> s = s'
}.

End Tracker.

(** ** [app/api/plan_with_progress.py]: the progress stream *)

Module Stream.
Import Py Tracker.

(** What one [await asyncio.wait_for(queue.get(), timeout=60.0)] comes back
    with: an update taken from the queue, or [asyncio.TimeoutError]. *)
Inductive wait_result : Type :=
| Got (u : update)
| TimedOut.

(** The dictionaries the generator yields; [data] is the value handed to
    [json.dumps]. *)
Inductive json_data : Type :=
| JsonUpdate (u : update)
| JsonStatus (status : string) (message : option string).

Record sse : Type := { event : string; data : json_data }.

Definition sse_progress (u : update) : sse :=
  {| event := "progress"; data := JsonUpdate u |}.

Definition sse_timeout : sse :=
  {| event := "error";
     data := JsonStatus "timeout" (Some "No progress updates received") |}.

Definition sse_ping : sse :=
  {| event := "ping"; data := JsonStatus "alive" None |}.

Definition max_keep_alives : nat := 5.

(** A run of the generator over the waits it made: what it yielded, whether
    it left the loop ([finished]) or is suspended in the next wait, and the
    waits it never made. *)
Record run : Type := {
  yielded : list sse;
  finished : bool;
  unread : list wait_result
}.

Definition yield (e : sse) (r : run) : run :=
  {| yielded := e :: yielded r; finished := finished r; unread := unread r |}.

Definition stop (e : sse) (rest : list wait_result) : run :=
  {| yielded := [e]; finished := true; unread := rest |}.

(** The [while True] loop of [event_generator] (lines 54-82). *)
Fixpoint event_generator (keep_alive_count : nat) (waits : list wait_result)
  : run :=
  match waits with
  | [] => {| yielded := []; finished := false; unread := [] |}
  | Got u :: rest =>
      if (progress_percent u =? 100)%Z then stop (sse_progress u) rest
      else yield (sse_progress u) (event_generator 0 rest)
  | TimedOut :: rest =>
      let keep_alive_count := S keep_alive_count in
      if (max_keep_alives <=? keep_alive_count)%nat then stop sse_timeout rest
      else yield sse_ping (event_generator keep_alive_count rest)
  end.

(** [stream_progress]: subscribe, run the generator, and unsubscribe in the
    [finally] once the loop is left. *)
Definition stream_progress (t : ProgressTracker) (session_id : string)
    (waits : list wait_result) : ProgressTracker * nat * run :=
  let '(t1, queue) := subscribe t session_id in
  let r := event_generator 0 waits in
  (if finished r then unsubscribe t1 session_id else t1, queue, r).



End Stream.

(** ** [app/api/plan_with_progress.py]: the plan pipeline *)

Module Pipeline.
Import Py Tracker.

(** [schemas/business_profile.py]; [location] is the property of line 19. *)
Record BusinessProfile : Type := {
  business_name : string;
  business_type : string;
  zip_code : string;
  miles_radius : Z;
  goal : string;
  monthly_budget : Q;
  duration_weeks : Z;
  is_local : bool;
  competitors : list string
}.

Definition location (p : BusinessProfile) : string := zip_code p.

(** [models.py] *)
Record PlanRequest : Type := {
  profile : BusinessProfile;
  session_id : option string
}.

(** [schemas/media_plan.py]; of a plan the pipeline reads [total_budget]
    only. *)
Record MediaPlan : Type := { total_budget : Q }.

Record ScenarioSet : Type := {
  standard_plan : MediaPlan;
  aggressive_plan : MediaPlan;
  experimental_plan : MediaPlan
}.

(** [schemas/performance.py]; an empty dictionary is [None]. *)
Record PerformancePrediction : Type := {
  reach : string;
  clicks : string;
  cpc_estimate : string;
  roi_range : string;
  reach_analytics : option Analytics.reach_analytics;
  budget_scaling : option Analytics.budget_scaling
}.

Record PerformanceSet : Type := {
  standard : PerformancePrediction;
  aggressive : PerformancePrediction;
  experimental : PerformancePrediction
}.

Section Orchestrator.

(** The results of the other agents are passed on and never inspected. *)
Context {Persona LocationRecommendation CompetitorSnapshot : Type}.
Context {CreativeAssets Evaluation RagInsights : Type}.

(** The dictionary the endpoint returns (lines 261-272). *)
Record PlanResult : Type := {
  r_session_id : string;
  r_persona : Persona;
  r_location_recommendation : LocationRecommendation;
  r_competitor_snapshot : CompetitorSnapshot;
  r_scenarios : ScenarioSet;
  r_performance : PerformanceSet;
  r_creatives : CreativeAssets;
  r_critic_evaluation : Evaluation;
  r_rag_insights : RagInsights;
  r_summary_text : string
}.

(** The collaborators of the endpoint: the two memories, the eight agents,
    and the clocks.  A call returns or raises. *)
Record Collaborators : Type := {
  get_user_by_session : string -> result (option Z);
  create_session : string -> result Z;
  store_business_profile : string -> BusinessProfile -> result unit;
  augment_profile_with_insights : BusinessProfile -> result RagInsights;
  generate_persona : BusinessProfile -> result Persona;
  recommend_miles : BusinessProfile -> result LocationRecommendation;
  analyze_competitors :
    list string -> string -> string -> result CompetitorSnapshot;
  generate_scenarios :
    BusinessProfile -> Persona -> CompetitorSnapshot -> result ScenarioSet;
  generate_assets : BusinessProfile -> Persona -> result CreativeAssets;
  predict_performance :
    ScenarioSet -> Persona -> string -> string -> bool -> result PerformanceSet;
  evaluate_plan :
    ScenarioSet -> Persona -> CompetitorSnapshot -> CreativeAssets -> string ->
    result Evaluation;
  save_plan : Z -> BusinessProfile -> PlanResult -> result Z;
  store_plan : string -> string -> PlanResult -> result unit;
  (** [str(uuid.uuid4())] *)
  uuid4 : string;
  (** [datetime.now().isoformat()], at its n-th reading *)
  isoformat_now : nat -> string;
  (** [int(time.time())] when the plan is stored *)
  time_now : Z
}.

Variable C : Collaborators.

(** The state the endpoint works on: the global [progress_tracker], the
    number of readings of the clock, and the records of [agent_logger].
    [published] is a history variable: the updates [update_progress] was
    called for, with their session, oldest first. *)
Record world : Type := {
  tracker : ProgressTracker;
  clock : nat;
  agent_calls : list (string * string);
  published : list (string * update)
}.

(** State and exceptions. *)
Definition M (A : Type) : Type := world -> world * result A.

Definition ret {A} (a : A) : M A := fun w => (w, Ok a).

Definition raise {A} (e : exn) : M A := fun w => (w, Raise e).

Definition bindM {A B} (m : M A) (k : A -> M B) : M B :=
  fun w =>
    match m w with
    | (w', Ok a) => k a w'
    | (w', Raise e) => (w', Raise e)
    end.

(** [try: body except Exception as e: handler] *)
Definition try_except {A} (body : M A) (handler : exn -> M A) : M A :=
  fun w =>
    match body w with
    | (w', Ok a) => (w', Ok a)
    | (w', Raise e) => handler e w'
    end.

(** A call of a collaborator, or of a function of this program. *)
Definition call {A} (r : result A) : M A := fun w => (w, r).

Declare Scope pipeline_scope.
Delimit Scope pipeline_scope with pipeline.
Notation "x <- m ;; k" := (bindM m (fun x => k))
  (at level 100, m at next level, right associativity) : pipeline_scope.
Notation "m ;; k" := (bindM m (fun _ => k))
  (at level 100, right associativity) : pipeline_scope.
Local Open Scope pipeline_scope.

(** [await progress_tracker.update_progress(...)] *)
Definition update_progress (session_id : string) (step total_steps : Z)
    (agent_name status message : string) : M unit :=
  fun w =>
    let now := isoformat_now C (clock w) in
    match Tracker.update_progress (tracker w) session_id step total_steps
            agent_name status message now with
    | Ok (t, update) =>
        ({| tracker := t;
            clock := S (clock w);
            agent_calls := agent_calls w;
            published := published w ++ [(session_id, update)] |},
         Ok tt)
    | Raise e => (w, Raise e)
    end.

(** [agent_logger.log_agent_call(agent, method, duration, True)] *)
Definition log_agent_call (agent method : string) : M unit :=
  fun w =>
    ({| tracker := tracker w;
        clock := clock w;
        agent_calls := agent_calls w ++ [(agent, method)];
        published := published w |}, Ok tt).

(** The body of the loop of lines 207-228, for one scenario. *)
Definition add_analytics (p : BusinessProfile) (scenario_perf : PerformancePrediction)
    (plan : MediaPlan) : result PerformancePrediction :=
  bind (Analytics.calculate_reach_percentage
          (reach scenario_perf) (location p) (is_local p))
    (fun reach_analytics =>
  bind (Analytics.calculate_budget_scaling
          (int_of_float (total_budget plan))
          (Analytics.reach_min_of reach_analytics)
          (Analytics.reach_max_of reach_analytics) 2%Q)
    (fun budget_scaling =>
  Ok {| reach := reach scenario_perf;
        clicks := clicks scenario_perf;
        cpc_estimate := cpc_estimate scenario_perf;
        roi_range := roi_range scenario_perf;
        reach_analytics := Some reach_analytics;
        budget_scaling := Some budget_scaling |})).

(** The loop over ['standard', 'aggressive', 'experimental']. *)
Definition add_all_analytics (p : BusinessProfile) (performance : PerformanceSet)
    (scenarios : ScenarioSet) : result PerformanceSet :=
  bind (add_analytics p (standard performance) (standard_plan scenarios))
    (fun s =>
  bind (add_analytics p (aggressive performance) (aggressive_plan scenarios))
    (fun a =>
  bind (add_analytics p (experimental performance) (experimental_plan scenarios))
    (fun e =>
  Ok {| standard := s; aggressive := a; experimental := e |}))).

Definition total_steps : Z := Z.of_nat (length AGENT_STEPS).

(** [plan_request.session_id or str(uuid.uuid4())] *)
Definition session_of (plan_request : PlanRequest) : string :=
  match session_id plan_request with
  | Some s => if String.eqb s "" then uuid4 C else s
  | None => uuid4 C
  end.

(** The [try] block, lines 99-292.  (Its first two statements, which bind
    [profile] and [session_id] and cannot raise, are in [session_of] and in
    the caller.) *)
Definition plan_body (profile : BusinessProfile) (session_id : string)
  : M PlanResult :=
  found <- call (get_user_by_session C session_id) ;;
  user_id <- match found with
             | Some uid => if (uid =? 0)%Z then call (create_session C session_id)
                           else ret uid
             | None => call (create_session C session_id)
             end ;;
  call (store_business_profile C session_id profile) ;;
  update_progress session_id 1 total_steps "RAGAgent" "running"
    "🔍 Retrieving historical insights from vector database..." ;;
  rag_insights <- call (augment_profile_with_insights C profile) ;;
  log_agent_call "RAGAgent" "augment_profile_with_insights" ;;
  update_progress session_id 2 total_steps "PersonaAgent" "running"
    "👥 Generating 3 detailed customer personas..." ;;
  persona <- call (generate_persona C profile) ;;
  log_agent_call "PersonaAgent" "generate_persona" ;;
  update_progress session_id 3 total_steps "LocationAgent" "running"
    "📍 Analyzing location demographics and optimal radius..." ;;
  location_recommendation <- call (recommend_miles C profile) ;;
  log_agent_call "LocationAgent" "recommend_miles" ;;
  update_progress session_id 4 total_steps "CompetitorAgent" "running"
    "🏆 Researching competitors and market opportunities..." ;;
  competitor_snapshot <-
    call (analyze_competitors C
            (match competitors profile with
             | [] => ["Generic Competitor"]
             | cs => cs
             end)
            (business_type profile) (zip_code profile)) ;;
  log_agent_call "CompetitorAgent" "analyze_competitors" ;;
  update_progress session_id 5 total_steps "PlannerAgent" "running"
    "💰 Creating 3 budget scenarios with channel allocation..." ;;
  scenarios <- call (generate_scenarios C profile persona competitor_snapshot) ;;
  log_agent_call "PlannerAgent" "generate_scenarios" ;;
  update_progress session_id 6 total_steps "CreativeAgent" "running"
    "🎨 Generating creative assets and ad copy..." ;;
  creatives <- call (generate_assets C profile persona) ;;
  log_agent_call "CreativeAgent" "generate_assets" ;;
  update_progress session_id 7 total_steps "PerformanceAgent" "running"
    "📈 Predicting performance metrics and ROI..." ;;
  performance <-
    call (predict_performance C scenarios persona (business_type profile)
            (zip_code profile) (is_local profile)) ;;
  log_agent_call "PerformanceAgent" "predict_performance" ;;
  performance <- call (add_all_analytics profile performance scenarios) ;;
  update_progress session_id 8 total_steps "CriticAgent" "running"
    "✅ Evaluating plan quality and scoring..." ;;
  evaluation <-
    call (evaluate_plan C scenarios persona competitor_snapshot creatives
            (goal profile)) ;;
  log_agent_call "CriticAgent" "evaluate_plan" ;;
  update_progress session_id total_steps total_steps "Complete" "done"
    "✨ Marketing plan generation complete!" ;;
  let result :=
    {| r_session_id := session_id;
       r_persona := persona;
       r_location_recommendation := location_recommendation;
       r_competitor_snapshot := competitor_snapshot;
       r_scenarios := scenarios;
       r_performance := performance;
       r_creatives := creatives;
       r_critic_evaluation := evaluation;
       r_rag_insights := rag_insights;
       r_summary_text :=
         "Your personalized marketing plan for " +:+ business_name profile +:+
         " is ready!" |} in
  call (save_plan C user_id profile result) ;;
  call (store_plan C session_id
          ("plan_" +:+ NilZero.string_of_int (Z.to_int (time_now C))) result) ;;
  ret result.

(** The [except] block, lines 294-300. *)
Definition on_error (session_id : string) (e : exn) : M PlanResult :=
  update_progress session_id 0 total_steps "Error" "error"
    ("❌ Error: " +:+ str_exn e) ;;
  raise (HTTPException 500 (str_exn e)).

Definition create_plan_with_progress (plan_request : PlanRequest)
  : M PlanResult :=
  let profile := profile plan_request in
  let session_id := session_of plan_request in
  try_except (plan_body profile session_id) (on_error session_id).

(** The updates a run published, with their session, in order. *)
Definition events (before after : world) : list (string * update) :=
  drop (length (published before)) (published after).

End Orchestrator.

Definition percents (evs : list (string * update)) : list Z :=
  progress_percent <$> evs.*2.

Definition in_range (x : Z) : Prop := 0 <= x <= 100.

(** The update of the [except] block. *)
Definition error_update (detail now : string) : update :=
  make_update 0 8 0 "Error" "error" ("❌ Error: " +:+ detail) now.

(** An update without its timestamp:
    step, progress_percent, agent_name, status, message. *)
Definition shape : Type := Z * Z * string * string * string.

Definition shape_of (u : update) : shape :=
  (step u, progress_percent u, agent_name u, status u, message u).

Definition shape_percent (s : shape) : Z := s.1.1.1.2.


(** The eight updates of the steps, the one of line 253 and the one of
    line 296. *)
Definition running_shapes : list shape :=
  [ (1, 12, "RAGAgent", "running",
     "🔍 Retrieving historical insights from vector database...");
    (2, 25, "PersonaAgent", "running",
     "👥 Generating 3 detailed customer personas...");
    (3, 37, "LocationAgent", "running",
     "📍 Analyzing location demographics and optimal radius...");
    (4, 50, "CompetitorAgent", "running",
     "🏆 Researching competitors and market opportunities...");
    (5, 62, "PlannerAgent", "running",
     "💰 Creating 3 budget scenarios with channel allocation...");
    (6, 75, "CreativeAgent", "running",
     "🎨 Generating creative assets and ad copy...");
    (7, 87, "PerformanceAgent", "running",
     "📈 Predicting performance metrics and ROI...");
    (8, 100, "CriticAgent", "running",
     "✅ Evaluating plan quality and scoring...") ].

Definition done_shape : shape :=
  (8, 100, "Complete", "done", "✨ Marketing plan generation complete!").

(** What a call raised, if it did. *)
Definition raised {A} (r : result A) : option exn :=
  match r with
  | Ok _ => None
  | Raise e => Some e
  end.

(** What the [try] block has published when it is left, and how it is
    left: by [return], by an exception before the update of line 253, or by
    an exception after it. *)
Inductive body_outcome : list shape -> option exn -> Prop :=
| BodyReturned :
    body_outcome (running_shapes ++ [done_shape]) None
| BodyRaised (n : nat) (e : exn) :
    (n <= 8)%nat -> body_outcome (take n running_shapes) (Some e)
| BodyRaisedLate (e : exn) :
    body_outcome (running_shapes ++ [done_shape]) (Some e).

Definition body_spec {A} (sid : string) (w : world) (out : world * result A)
  : Prop :=
  exists evs : list (string * update),
    published out.1 = published w ++ evs /\
    tracker out.1 = publish_seq (tracker w) evs /\
    Forall (fun ev => ev.1 = sid) evs /\
    body_outcome (shape_of <$> evs.*2) (raised out.2).

End Pipeline.

(** ** Test doubles: a request, and collaborators that fail where told *)

Module Scenario.
Import Py Tracker Pipeline.

(** The result of the call numbered [call]: an exception if it is the one
    told to fail. *)
Definition answer {A} (fail_at call : nat) (msg : string) (a : A) : result A :=
  if (fail_at =? call)%nat then Raise (Exception msg) else Ok a.

(** Collaborators of which the call numbered [fail_at] raises: 1 to 8 are
    the agents, in the order of their steps, 9 is [save_plan], 10 is
    [store_plan]; with another number none raises.  The performance agent
    predicts [reach_text] for every scenario. *)
Definition stub (fail_at : nat) (msg reach_text : string)
  : @Collaborators unit unit unit unit unit unit :=
  let plan := {| total_budget := 2500 |} in
  let prediction :=
    {| reach := reach_text; clicks := "800-1,200 clicks";
       cpc_estimate := "$1.50-$2.50"; roi_range := "2.5x-3.5x return";
       reach_analytics := None; budget_scaling := None |} in
  {| get_user_by_session := fun _ => Ok None;
     create_session := fun _ => Ok 1;
     store_business_profile := fun _ _ => Ok tt;
     augment_profile_with_insights := fun _ => answer fail_at 1 msg tt;
     generate_persona := fun _ => answer fail_at 2 msg tt;
     recommend_miles := fun _ => answer fail_at 3 msg tt;
     analyze_competitors := fun _ _ _ => answer fail_at 4 msg tt;
     generate_scenarios := fun _ _ _ =>
       answer fail_at 5 msg
         {| standard_plan := plan; aggressive_plan := plan;
            experimental_plan := plan |};
     generate_assets := fun _ _ => answer fail_at 6 msg tt;
     predict_performance := fun _ _ _ _ _ =>
       answer fail_at 7 msg
         {| standard := prediction; aggressive := prediction;
            experimental := prediction |};
     evaluate_plan := fun _ _ _ _ _ => answer fail_at 8 msg tt;
     save_plan := fun _ _ _ => answer fail_at 9 msg 1;
     store_plan := fun _ _ _ => answer fail_at 10 msg tt;
     uuid4 := "7f9c2ba4-e88f-4b1d-9c59-0c5d6a1b2e3f";
     isoformat_now := fun n =>
       "2024-01-01T00:00:0" +:+ NilZero.string_of_uint (Nat.to_uint n);
     time_now := 1704067200 |}.

Definition coffee_shop : BusinessProfile :=
  {| business_name := "Joe's Coffee Shop"; business_type := "Coffee Shop";
     zip_code := "94102"; miles_radius := 3;
     goal := "Increase foot traffic and brand awareness";
     monthly_budget := 2500; duration_weeks := 8; is_local := true;
     competitors := ["Starbucks"; "Blue Bottle Coffee"] |}.

Definition request : PlanRequest :=
  {| profile := coffee_shop; session_id := Some "abc123" |}.

(** A stream has subscribed to the session; nothing is published yet. *)
Definition start : world :=
  {| tracker := (subscribe init "abc123").1; clock := 0;
     agent_calls := []; published := [] |}.

(** The second agent raises. *)
Definition persona_fails : @Collaborators unit unit unit unit unit unit :=
  stub 2 "model overloaded" "15,000-20,000 people".

(** Every agent returns; the plan cannot be saved. *)
Definition save_fails : @Collaborators unit unit unit unit unit unit :=
  stub 9 "Object of type CriticEvaluation is not JSON serializable"
    "15,000-20,000 people".

(** Nothing raises. *)
Definition all_succeed : @Collaborators unit unit unit unit unit unit :=
  stub 0 "" "15,000-20,000 people".

(** The performance agent answers in words, with a comma. *)
Definition reach_in_words : @Collaborators unit unit unit unit unit unit :=
  stub 0 "" "N/A, unknown".

(** The update of a failed run, and an update published after it. *)
Definition boom : update :=
  error_update "model overloaded" "2024-01-01T00:00:02".

Definition late : update :=
  make_update 3 8 37 "LocationAgent" "running"
    "📍 Analyzing location demographics and optimal radius..."
    "2024-01-01T00:00:03".

(** Two publications to the session, one to another. *)
Definition three_events : list (string * update) :=
  [ ("abc123", late); ("other", late); ("abc123", boom) ].

End Scenario.

(** * Properties *)

(** ** The analytics *)

Module AnalyticsFacts.
Import Py Analytics.

Section RealPower.
Local Open Scope R_scope.

Lemma Q2R_two : Q2R 2 = 2.
Proof. unfold Q2R; simpl; lra. Qed.

(** [x ** 1.3], ten times over, is [x ** 13]. *)
Lemma power_tenth (x : R) : 0 < x -> Rpower x exponent ^ 10 = x ^ 13.
Proof.
  intros Hx. unfold exponent.
  rewrite <- (Rpower_pow 10) by apply exp_pos.
  rewrite Rpower_mult.
  replace (13 / 10 * INR 10) with (INR 13) by (simpl; lra).
  now apply Rpower_pow.
Qed.

Lemma power_above (a x : R) :
  0 <= a -> 0 < x -> a ^ 10 < x ^ 13 -> a < Rpower x exponent.
Proof.
  intros Ha Hx Hlt.
  destruct (Rlt_le_dec a (Rpower x exponent)) as [|Hle]; [assumption|].
  exfalso. assert (H : Rpower x exponent ^ 10 <= a ^ 10).
  { apply pow_incr. split; [left; apply exp_pos | assumption]. }
  rewrite power_tenth in H by assumption. lra.
Qed.

Lemma power_below (a x : R) :
  0 < x -> x ^ 13 < a ^ 10 -> 0 <= a -> Rpower x exponent < a.
Proof.
  intros Hx Hlt Ha.
  destruct (Rlt_le_dec (Rpower x exponent) a) as [|Hle]; [assumption|].
  exfalso. assert (H : a ^ 10 <= Rpower x exponent ^ 10).
  { apply pow_incr. split; assumption. }
  rewrite power_tenth in H by assumption. lra.
Qed.

(** [2 ** 1.3 = 2.46228...] *)
Lemma two_power_bounds :
  24622 / 10000 < Rpower 2 exponent < 24624 / 10000.
Proof.
  split.
  - apply power_above; lra.
  - apply power_below; lra.
Qed.


Lemma int_of_real_between (x : R) (z : Z) :
  0 <= IZR z <= x -> x < IZR z + 1 -> int_of_real x = z.
Proof.
  intros [Hz Hle] Hlt. unfold int_of_real.
  destruct (Rle_dec 0 x) as [_|Hn]; [|lra].
  symmetry. apply Int_part_spec. lra.
Qed.

Lemma math_pow_two : math_pow 2 = Ok (Rpower 2 exponent).
Proof. unfold math_pow. simpl. now rewrite Q2R_two. Qed.

Lemma doubled_2500 : int_of_real (IZR 2500 * Rpower 2 exponent) = 6155%Z.
Proof.
  destruct two_power_bounds as [Hlo Hhi].
  apply int_of_real_between; lra.
Qed.

End RealPower.



(** A division behind the test of its divisor does not raise. *)
Lemma truediv_ok (x y : Q) : positive y = true -> truediv x y = Ok (x / y)%Q.
Proof.
  unfold positive, truediv. intros Hp.
  destruct (Qeq_bool y 0) eqn:He; [|reflexivity].
  apply Qeq_bool_eq in He. rewrite (proj1 (Qeq_alt y 0) He) in Hp. discriminate.
Qed.

Lemma truediv_ok_Z (x : Q) (z : Z) :
  (z >? 0) = true -> truediv x (inject_Z z) = Ok (x / inject_Z z)%Q.
Proof.
  intros Hz. apply truediv_ok. unfold positive.
  assert (H : (0 < inject_Z z)%Q) by (unfold Qlt; simpl; lia).
  apply Qgt_alt in H. now rewrite H.
Qed.

Lemma guarded_truediv (b : bool) (x y : Q) :
  (b = true -> truediv x y = Ok (x / y)%Q) ->
  (if b then truediv x y else Ok 0%Q) = Ok (if b then (x / y)%Q else 0%Q).
Proof. destruct b; auto. Qed.

Lemma guarded_change_percent (b : bool) (x y : Q) :
  (b = true -> truediv x y = Ok (x / y)%Q) ->
  (if b then change_percent x y else Ok 0%Q) =
  Ok (if b then round ((x / y - 1) * 100)%Q 1 else 0%Q).
Proof.
  unfold change_percent. destruct b; [|reflexivity].
  intros H. now rewrite H.
Qed.

(** Once [math.pow] has returned, [calculate_budget_scaling] returns, with
    the fields of lines 129-143. *)
Lemma calculate_budget_scaling_returns (budget lo hi : Z) (m : Q) (bm : R) :
  math_pow m = Ok bm ->
  let avg := (inject_Z (lo + hi) / 2)%Q in
  let target_avg := int_of_float (avg * m)%Q in
  let rb := int_of_real (IZR budget * bm)%R in
  let cost := if positive avg then (inject_Z budget / avg)%Q else 0%Q in
  exists r, calculate_budget_scaling budget lo hi m = Ok r /\
    recommended_budget r = rb /\
    budget_increase r = rb - budget /\
    budget_increase_percent r =
      (if budget >? 0
       then round ((inject_Z rb / inject_Z budget - 1) * 100)%Q 1 else 0%Q) /\
    target_reach_range r =
      format_thousands (int_of_float (inject_Z lo * m)%Q) +:+ "-" +:+
      format_thousands (int_of_float (inject_Z hi * m)%Q) /\
    current_cost_per_reach r = round cost 2 /\
    new_cost_per_reach r =
      round (if target_avg >? 0
             then (inject_Z rb / inject_Z target_avg)%Q else 0%Q) 2.
Proof.
  intros Hpow avg target_avg rb cost.
  unfold calculate_budget_scaling. rewrite Hpow. cbv zeta.
  fold avg. fold target_avg. unfold bind at 1. fold rb.
  rewrite (guarded_truediv (positive avg)) by apply truediv_ok.
  unfold bind at 1. fold cost.
  rewrite (guarded_truediv (target_avg >? 0)) by apply truediv_ok_Z.
  unfold bind at 1.
  rewrite (guarded_change_percent (budget >? 0)) by apply truediv_ok_Z.
  unfold bind at 1.
  rewrite (guarded_change_percent (positive cost)) by apply truediv_ok.
  unfold bind.
  eexists. split; [reflexivity|]. simpl. repeat split.
Qed.

(** The one exception [calculate_budget_scaling] raises is the domain
    error of [math.pow]; in particular it never divides by zero. *)
Lemma calculate_budget_scaling_raises (budget lo hi : Z) (m : Q) (e : exn) :
  calculate_budget_scaling budget lo hi m = Raise e ->
  e = ValueError "math domain error" /\ (m < 0)%Q.
Proof.
  intros Hr. destruct (math_pow m) as [bm|e'] eqn:Hpow.
  - destruct (calculate_budget_scaling_returns budget lo hi m bm Hpow)
      as (r & Hok & _). congruence.
  - unfold calculate_budget_scaling in Hr. rewrite Hpow in Hr. simpl in Hr.
    unfold math_pow in Hpow. destruct (Qcompare m 0) eqn:Hc; try discriminate.
    apply Qlt_alt in Hc. split; congruence.
Qed.




(** C5.  [calculate_budget_scaling(2500, 15000, 20000, 2.0)] returns
    a target_reach_range of "30,000-40,000", a recommended_budget of 6155 and
    a budget_increase_percent of 146.2. *)
Theorem budget_scaling_example :
  exists r, calculate_budget_scaling 2500 15000 20000 2 = Ok r /\
    target_reach_range r = "30,000-40,000" /\
    recommended_budget r = 6155 /\
    (budget_increase_percent r == 1462 # 10)%Q.
Proof.
  destruct (calculate_budget_scaling_returns 2500 15000 20000 2 _ math_pow_two)
    as (r & Hr & Hrb & _ & Hpct & Hrange & _).
  rewrite doubled_2500 in Hrb, Hpct.
  exists r. split; [assumption|]. rewrite Hrange, Hrb, Hpct.
  repeat split.
Qed.




Example negative_multiplier_raises :
  calculate_budget_scaling 2500 0 0 (-2) = Raise (ValueError "math domain error").
Proof. reflexivity. Qed.

(** With zero reach no exception is a division by zero, whatever the
    multiplier. *)
Lemma zero_reach_never_divides_by_zero (budget : Z) (m : Q) (msg : string) :
  calculate_budget_scaling budget 0 0 m <> Raise (ZeroDivisionError msg).
Proof.
  intros Hr. apply calculate_budget_scaling_raises in Hr as [He _]. discriminate.
Qed.

(** C6.  [calculate_reach_percentage("15,000-20,000", "San Francisco",
    True)]: the location matches the San Francisco entry of the table,
    1,200,000; target_population is 300000, percentage_min 5.0 and
    percentage_max 6.7. *)
Theorem reach_percentage_example :
  match_location population_estimates (lower "San Francisco") = Some 1200000 /\
  int_of_float (inject_Z 1200000 * (25 # 100))%Q = 300000 /\
  exists display pmin pmax,
    calculate_reach_percentage "15,000-20,000" "San Francisco" true =
      Ok (ReachKnown 15000 20000 300000 pmin pmax display) /\
    (pmin == 5)%Q /\ (pmax == 67 # 10)%Q.
Proof.
  split; [reflexivity|]. split; [reflexivity|].
  eexists _, _, _. split; [vm_compute; reflexivity|]. split; reflexivity.
Qed.

(** *** Texts without a number *)

Lemma findall_from_none (s : string) :
  any_char in_class s = false -> findall_from "" s = [].
Proof.
  induction s as [|c s IH]; simpl; [reflexivity|].
  intros H. apply orb_false_iff in H as [Hc Hs]. rewrite Hc. simpl. auto.
Qed.

(** A text with neither a digit nor a comma gives the degenerate result. *)
Lemma no_token_degenerate (reach_string location : string) (is_local : bool) :
  any_char in_class reach_string = false ->
  calculate_reach_percentage reach_string location is_local =
    Ok (ReachUnknown 0 0 "Unknown" "Unknown").
Proof.
  intros H. unfold calculate_reach_percentage, findall.
  now rewrite findall_from_none.
Qed.

Lemma all_commas_snoc (tok : string) (c : ascii) :
  all_chars is_comma tok = true -> is_comma c = true ->
  all_chars is_comma (tok +:+ String c "") = true.
Proof.
  intros Ht Hc. induction tok as [|d tok IH]; simpl in *.
  - now rewrite Hc.
  - apply andb_true_iff in Ht as [Hd Ht]. rewrite Hd. simpl. auto.
Qed.

Lemma snoc_not_empty (tok : string) (c : ascii) : tok +:+ String c "" <> "".
Proof. destruct tok; discriminate. Qed.

Lemma in_class_no_digit (c : ascii) :
  is_digit c = false -> in_class c = is_comma c.
Proof. unfold in_class. now intros ->. Qed.

(** In a text without a digit, a token that has begun with commas only ends
    with commas only. *)
Lemma findall_from_commas (s tok : string) :
  any_char is_digit s = false ->
  all_chars is_comma tok = true ->
  tok <> "" \/ any_char is_comma s = true ->
  exists tok' rest, findall_from tok s = tok' :: rest /\
    tok' <> "" /\ all_chars is_comma tok' = true.
Proof.
  revert tok. induction s as [|c s IH]; intros tok Hd Ht Hne; simpl in *.
  - destruct Hne as [Hne|]; [|discriminate].
    destruct tok; [congruence|]. simpl. eexists _, _.
    split; [reflexivity | split; [discriminate | assumption]].
  - apply orb_false_iff in Hd as [Hc Hs].
    rewrite (in_class_no_digit c Hc).
    destruct (is_comma c) eqn:Hcomma.
    + apply IH; [assumption | now apply all_commas_snoc |].
      left. apply snoc_not_empty.
    + simpl in Hne. destruct tok as [|d tok].
      * simpl. apply IH; [assumption | reflexivity |].
        destruct Hne as [Hne|Hne]; [congruence | right; exact Hne].
      * simpl. eexists _, _.
        split; [reflexivity | split; [discriminate | assumption]].
Qed.

Lemma remove_all_commas (tok : string) :
  all_chars is_comma tok = true -> remove_char ","%char tok = "".
Proof.
  induction tok as [|c tok IH]; simpl; [reflexivity|].
  intros H. apply andb_true_iff in H as [Hc Ht]. unfold is_comma in Hc.
  rewrite Hc. auto.
Qed.

(** A text without a digit and with a comma: the commas are a token, the
    token without its commas is empty, and [int('')] raises. *)
Lemma comma_without_digit_raises (reach_string location : string)
    (is_local : bool) :
  any_char is_digit reach_string = false ->
  any_char is_comma reach_string = true ->
  calculate_reach_percentage reach_string location is_local =
    Raise (ValueError "invalid literal for int() with base 10: ''").
Proof.
  intros Hd Hc.
  destruct (findall_from_commas reach_string "" Hd eq_refl (or_intror Hc))
    as (tok & rest & Hf & _ & Hall).
  unfold calculate_reach_percentage, findall. rewrite Hf.
  now rewrite (remove_all_commas tok Hall).
Qed.

(** C8 fails on the code: "N/A, unknown" has no digit, and
    [calculate_reach_percentage] raises [ValueError] on it instead of
    returning the degenerate result. *)
Theorem no_digit_text_raises :
  any_char is_digit "N/A, unknown" = false /\
  calculate_reach_percentage "N/A, unknown" "Unknown Town" false =
    Raise (ValueError "invalid literal for int() with base 10: ''").
Proof. split; reflexivity. Qed.

End AnalyticsFacts.

(** ** The tracker *)

Module TrackerFacts.
Import Py Tracker Scenario.

Lemma wf_init : wf init.
Proof. split; intros *; unfold init; simpl; by rewrite lookup_empty. Qed.

Lemma subscribers_publish t s u : subscribers (publish t s u) = subscribers t.
Proof. unfold publish, put; simpl. by destruct (subscribers t !! s). Qed.

Lemma length_queues_publish t s u :
  length (queues (publish t s u)) = length (queues t).
Proof.
  unfold publish, put; simpl. destruct (subscribers t !! s); simpl; [|done].
  by rewrite length_alter.
Qed.

Lemma wf_publish t s u : wf t -> wf (publish t s u).
Proof.
  intros [Hb Hi]. split.
  - intros s' q. rewrite subscribers_publish, length_queues_publish. apply Hb.
  - intros s1 s2 q. rewrite subscribers_publish. apply Hi.
Qed.

Lemma wf_subscribe t s : wf t -> wf (subscribe t s).1.
Proof.
  intros [Hb Hi]. split; simpl.
  - intros s' q. rewrite length_app; simpl.
    destruct (decide (s = s')) as [->|Hne].
    + rewrite lookup_insert_eq. intros [= <-]. lia.
    + rewrite lookup_insert_ne by done. intros H%Hb. lia.
  - intros s1 s2 q.
    destruct (decide (s = s1)) as [E1|H1], (decide (s = s2)) as [E2|H2]; subst;
      rewrite ?lookup_insert_eq, ?lookup_insert_ne by done; try done.
    + intros [= <-] H%Hb. lia.
    + intros H%Hb [= <-]. lia.
    + apply Hi.
Qed.

Lemma wf_unsubscribe t s : wf t -> wf (unsubscribe t s).
Proof.
  intros [Hb Hi]. unfold unsubscribe.
  destruct (subscribers t !! s) as [q0|] eqn:Hs; [|done].
  split; simpl.
  - intros s' q H. apply lookup_delete_Some in H as [_ H]. eauto.
  - intros s1 s2 q H1 H2. apply lookup_delete_Some in H1 as [_ H1].
    apply lookup_delete_Some in H2 as [_ H2]. eauto.
Qed.

(** A publication reaches the queue recorded for its session, and no
    other. *)
Lemma pending_publish t s u q :
  wf t ->
  pending (publish t s u) q =
  pending t q ++ (if decide (subscribers t !! s = Some q) then [u] else []).
Proof.
  intros [Hb _]. unfold pending, publish, put; simpl.
  destruct (subscribers t !! s) as [q'|] eqn:Hs; simpl.
  - destruct (decide (Some q' = Some q)) as [[= ->]|Hne].
    + destruct (lookup_lt_is_Some_2 (queues t) q (Hb _ _ Hs)) as [items Hq].
      by rewrite list_lookup_alter_eq, Hq.
    + rewrite list_lookup_alter_ne by congruence. by rewrite app_nil_r.
  - by rewrite app_nil_r.
Qed.

Lemma pending_publish_seq evs : forall t q,
  wf t ->
  pending (publish_seq t evs) q = pending t q ++ delivered_to t q evs.
Proof.
  unfold publish_seq, delivered_to.
  induction evs as [|[s u] evs IH]; intros t q Hwf; simpl.
  - by rewrite app_nil_r.
  - rewrite IH by by apply wf_publish.
    rewrite pending_publish by done. rewrite <- app_assoc. f_equal.
    rewrite filter_cons. simpl.
    erewrite (list_filter_iff _ (fun ev => subscribers t !! ev.1 = Some q)).
    2:{ intros ev. by rewrite subscribers_publish. }
    by destruct (decide (subscribers t !! s = Some q)).
Qed.

Lemma wf_publish_seq evs : forall t, wf t -> wf (publish_seq t evs).
Proof.
  unfold publish_seq. induction evs as [|[s u] evs IH]; intros t Hwf; simpl;
    [done | by apply IH, wf_publish].
Qed.

Lemma wf_get t q u t' : wf t -> get t q = Some (u, t') -> wf t'.
Proof.
  intros [Hb Hi]. unfold get.
  destruct (queues t !! q) as [[|item items]|]; intros [= <- <-].
  split; simpl; [|done]. intros s q'. rewrite length_insert. apply Hb.
Qed.

Lemma publish_seq_snoc (t : ProgressTracker) (evs : list (string * update))
    (s : string) (u : update) :
  publish_seq t (evs ++ [(s, u)]) = publish (publish_seq t evs) s u.
Proof. unfold publish_seq. by rewrite fold_left_app. Qed.

Lemma delivered_to_nobody t q evs :
  (forall s, subscribers t !! s <> Some q) -> delivered_to t q evs = [].
Proof.
  intros Hno. unfold delivered_to. induction evs as [|[s u] evs IH]; [done|].
  rewrite filter_cons. simpl. by rewrite decide_False by apply Hno.
Qed.

Lemma delivered_to_session (t : ProgressTracker) (sid : string) (q : nat)
    (evs : list (string * update)) :
  subscribers t !! sid = Some q -> Forall (fun ev => ev.1 = sid) evs ->
  delivered_to t q evs = evs.*2.
Proof.
  intros Hq Hall. unfold delivered_to. f_equal.
  induction Hall as [|[s u] evs Hs _ IH]; [done|].
  simpl in Hs. subst s. rewrite filter_cons. simpl.
  rewrite decide_True by done. by rewrite IH.
Qed.

(** C9.  After [subscribe] the new queue is empty, whatever was published
    before; of what is published from then on it receives the updates of
    its session, in order, and nothing else (so nothing until the first of
    them).  A queue that an earlier [subscribe] of the session had recorded
    is another queue, and receives none of it. *)
Theorem resubscribe_supersedes (t : ProgressTracker) (session_id : string)
    (evs : list (string * update)) :
  wf t ->
  let '(t2, q2) := subscribe t session_id in
  pending t2 q2 = [] /\
  pending (publish_seq t2 evs) q2 = updates_for session_id evs /\
  forall q1, subscribers t !! session_id = Some q1 ->
    q1 <> q2 /\ pending (publish_seq t2 evs) q1 = pending t q1.
Proof.
  intros Hwf. pose proof (wf_subscribe t session_id Hwf) as Hwf2.
  destruct Hwf as [Hb Hi].
  destruct (subscribe t session_id) as [t2 q2] eqn:Hsub.
  unfold subscribe in Hsub. injection Hsub as <- <-. simpl in Hwf2.
  set (t2 := {| progress_data := _ |}) in *.
  assert (Hnew : pending t2 (length (queues t)) = []).
  { unfold pending; simpl. by rewrite lookup_app_r, Nat.sub_diag by lia. }
  split; [done|]. split.
  - rewrite pending_publish_seq, Hnew by done. simpl.
    unfold delivered_to, updates_for. f_equal. apply list_filter_iff.
    intros [s u]; simpl. destruct (decide (session_id = s)) as [->|Hne].
    + by rewrite lookup_insert_eq.
    + rewrite lookup_insert_ne by done. split; [|congruence].
      intros H%Hb. lia.
  - intros q1 Hq1. pose proof (Hb _ _ Hq1) as Hlt. split; [lia|].
    rewrite pending_publish_seq by done.
    rewrite delivered_to_nobody.
    + rewrite app_nil_r. unfold pending; simpl. by rewrite lookup_app_l.
    + intros s. simpl. destruct (decide (session_id = s)) as [->|Hne].
      * rewrite lookup_insert_eq. intros [= Heq]. lia.
      * rewrite lookup_insert_ne by done. intros Hs. apply Hne. eauto.
Qed.

Lemma resubscribe_supersedes_witness :
  let '(t2, q2) := subscribe (subscribe init "abc123").1 "abc123" in
  pending t2 q2 = [] /\
  pending (publish_seq t2 three_events) q2 = updates_for "abc123" three_events /\
  forall q1, subscribers (subscribe init "abc123").1 !! "abc123" = Some q1 ->
    q1 <> q2 /\
    pending (publish_seq t2 three_events) q1 =
    pending (subscribe init "abc123").1 q1.
Proof.
  apply (resubscribe_supersedes (subscribe init "abc123").1 "abc123" three_events),
    wf_subscribe, wf_init.
Defined.

(** Two subscriptions, then three publications: the first queue stays
    empty, the second holds the two updates of the session. *)
Example two_subscribers :
  let '(t1, q1) := subscribe init "abc123" in
  let '(t2, q2) := subscribe t1 "abc123" in
  let t3 := publish_seq t2 three_events in
  pending t3 q1 = [] /\ pending t3 q2 = [late; boom].
Proof. vm_compute. split; reflexivity. Qed.

End TrackerFacts.

(** ** The progress stream *)

Module StreamFacts.
Import Py Tracker Stream Pipeline Scenario.

Lemma generator_at_100 (k : nat) (u : update) (rest : list wait_result) :
  progress_percent u = 100 ->
  event_generator k (Got u :: rest) = stop (sse_progress u) rest.
Proof. intros H. simpl. by rewrite H. Qed.

Lemma generator_below_100 (k : nat) (u : update) (rest : list wait_result) :
  progress_percent u <> 100 ->
  event_generator k (Got u :: rest) =
  yield (sse_progress u) (event_generator 0 rest).
Proof. intros H. simpl. by apply Z.eqb_neq in H as ->. Qed.


(** The update of status "error" has progress_percent 0: the generator
    forwards it, goes on reading, and forwards the next update. *)
Example stream_stays_open_after_error :
  status boom = "error" /\
  event_generator 0 [Got boom; Got late] =
    {| yielded := [sse_progress boom; sse_progress late];
       finished := false; unread := [] |}.
Proof. split; reflexivity. Qed.


(** When the generator has left its loop, the session has no subscriber. *)
Lemma stream_unsubscribes (t : ProgressTracker) (session_id : string)
    (waits : list wait_result) :
  let '(t', _, r) := stream_progress t session_id waits in
  finished r = true -> subscribers t' !! session_id = None.
Proof.
  unfold stream_progress, subscribe. intros ->. unfold unsubscribe. simpl.
  rewrite lookup_insert_eq. simpl. apply lookup_delete_eq.
Qed.

(** Five waits of 60 s without an update close the stream. *)
Example five_timeouts :
  event_generator 0 [TimedOut; TimedOut; TimedOut; TimedOut; TimedOut; Got late] =
    {| yielded := [sse_ping; sse_ping; sse_ping; sse_ping; sse_timeout];
       finished := true; unread := [Got late] |}.
Proof. reflexivity. Qed.

End StreamFacts.

(** ** The plan pipeline *)

Module PipelineFacts.
Import Py Tracker Pipeline Scenario.

Lemma percents_shapes (evs : list (string * update)) :
  percents evs = shape_percent <$> (shape_of <$> evs.*2).
Proof.
  unfold percents. induction evs as [|[s u] evs IH]; [done|].
  rewrite !fmap_cons. by rewrite IH.
Qed.


Lemma percents_app (evs evs' : list (string * update)) :
  percents (evs ++ evs') = percents evs ++ percents evs'.
Proof. unfold percents. by rewrite !fmap_app. Qed.

Lemma events_app (w w' : world) (evs : list (string * update)) :
  published w' = published w ++ evs -> events w w' = evs.
Proof. unfold events. intros ->. by rewrite drop_app_length. Qed.

(** *** The three ways the [try] block ends *)

Ltac compute_list :=
  lazymatch goal with
  | |- ?P ?l => let l' := eval vm_compute in l in change (P l')
  end.

Ltac each_prefix n tac :=
  do 9 (destruct n as [|n]; [compute_list; tac|]); lia.

Lemma body_outcome_sorted (l : list shape) (r : option exn) :
  body_outcome l r -> StronglySorted Z.le (shape_percent <$> l).
Proof.
  destruct 1 as [|n e Hn|e].
  - compute_list. repeat constructor; lia.
  - each_prefix n ltac:(repeat constructor; lia).
  - compute_list. repeat constructor; lia.
Qed.

Lemma body_outcome_range (l : list shape) (r : option exn) :
  body_outcome l r -> Forall in_range (shape_percent <$> l).
Proof.
  unfold in_range. destruct 1 as [|n e Hn|e].
  - compute_list. repeat constructor; lia.
  - each_prefix n ltac:(repeat constructor; lia).
  - compute_list. repeat constructor; lia.
Qed.



Lemma body_raised (l : list shape) (e : exn) :
  l = take (length l) running_shapes -> body_outcome l (Some e).
Proof.
  intros Hl. rewrite Hl. apply BodyRaised.
  apply (f_equal length) in Hl. rewrite length_take in Hl. simpl in Hl. lia.
Qed.

Section Run.
Context {Persona LocationRecommendation CompetitorSnapshot : Type}.
Context {CreativeAssets Evaluation RagInsights : Type}.
Variable C : @Collaborators Persona LocationRecommendation CompetitorSnapshot
               CreativeAssets Evaluation RagInsights.

(** *** One statement of the block at a time *)

Lemma bind_call {A B} (r : result A) (k : A -> M B) (w : world) :
  bindM (call r) k w = match r with Ok a => k a w | Raise e => (w, Raise e) end.
Proof. unfold bindM, call. by destruct r. Qed.

Lemma bind_ret {A B} (a : A) (k : A -> M B) (w : world) :
  bindM (ret a) k w = k a w.
Proof. done. Qed.

Lemma bind_log {B} (agent method : string) (k : unit -> M B) (w : world) :
  bindM (log_agent_call agent method) k w =
  k tt {| tracker := tracker w; clock := clock w;
          agent_calls := agent_calls w ++ [(agent, method)];
          published := published w |}.
Proof. done. Qed.

(** With the 8 steps of [AGENT_STEPS], [update_progress] does not raise. *)
Lemma bind_update {B} (sid : string) (step : Z) (agent status msg : string)
    (k : unit -> M B) (w : world) :
  bindM (update_progress C sid step total_steps agent status msg) k w =
  let u := make_update step 8 (int_of_float ((inject_Z step / 8) * 100)%Q)
             agent status msg (isoformat_now C (clock w)) in
  k tt {| tracker := publish (tracker w) sid u; clock := S (clock w);
          agent_calls := agent_calls w;
          published := published w ++ [(sid, u)] |}.
Proof. done. Qed.

Lemma bind_user {B} (found : option Z) (sid : string) (k : Z -> M B) (w : world) :
  bindM match found with
        | Some uid => if (uid =? 0)%Z then call (create_session C sid) else ret uid
        | None => call (create_session C sid)
        end k w =
  match match found with
        | Some uid => if (uid =? 0)%Z then create_session C sid else Ok uid
        | None => create_session C sid
        end with
  | Ok uid => k uid w
  | Raise e => (w, Raise e)
  end.
Proof.
  destruct found as [uid|]; [destruct (uid =? 0)%Z|];
    first [rewrite bind_call | rewrite bind_ret]; reflexivity.
Qed.

Ltac step_call :=
  first [rewrite bind_call | rewrite bind_user];
  match goal with
  | |- context [match ?r with Ok _ => _ | Raise _ => _ end] =>
      let e := fresh "e" in destruct r as [?|e]
  end.

Ltac step_pure :=
  first [rewrite bind_update; cbv zeta | rewrite bind_log];
  cbn [tracker clock agent_calls published].

Ltac close_body :=
  unfold body_spec; cbn [tracker clock agent_calls published fst snd];
  eexists; split;
    [first [symmetry; apply app_nil_r | rewrite <- ?app_assoc; reflexivity]|];
  split; [unfold publish_seq; cbn [fold_left app fst snd]; reflexivity|];
  split; [repeat constructor|];
  cbn [raised];
  lazymatch goal with
  | |- body_outcome _ None => apply BodyReturned
  | |- body_outcome _ (Some _) =>
      first [ apply body_raised; vm_compute; reflexivity | apply BodyRaisedLate ]
  end.

Ltac run_body := repeat first [ step_pure | step_call; [|solve [close_body]] ].

(** The [try] block, statement by statement: whichever call raises, the
    block has published the updates of the steps begun so far, and the one
    of line 253 if it had come that far. *)
Lemma plan_body_shape (p : BusinessProfile) (sid : string) (w : world) :
  body_spec sid w (plan_body C p sid w).
Proof. unfold plan_body. run_body. unfold ret. close_body. Qed.

(** The endpoint: the [try] block, and the handler if it raised. *)
Lemma create_plan_with_progress_eq (plan_request : PlanRequest) (w : world) :
  let sid := session_of C plan_request in
  create_plan_with_progress C plan_request w =
  match plan_body C (profile plan_request) sid w with
  | (w1, Ok a) => (w1, Ok a)
  | (w1, Raise e) =>
      let err := error_update (str_exn e) (isoformat_now C (clock w1)) in
      ({| tracker := publish (tracker w1) sid err;
          clock := S (clock w1);
          agent_calls := agent_calls w1;
          published := published w1 ++ [(sid, err)] |},
       Raise (HTTPException 500 (str_exn e)))
  end.
Proof.
  intros sid. unfold create_plan_with_progress, try_except. fold sid.
  destruct (plan_body C (profile plan_request) sid w) as [w1 [a|e]]; [done|].
  unfold on_error. rewrite bind_update. done.
Qed.


(** The tracker after a run is the tracker before, with the events of the
    run published to the session. *)
Lemma tracker_of_run (plan_request : PlanRequest) (w : world) :
  let out := create_plan_with_progress C plan_request w in
  tracker out.1 = publish_seq (tracker w) (events w out.1) /\
  Forall (fun ev => ev.1 = session_of C plan_request) (events w out.1).
Proof.
  intros out. subst out. rewrite create_plan_with_progress_eq.
  destruct (plan_body_shape (profile plan_request) (session_of C plan_request) w)
    as (evs & Hpub & Htr & Hsid & _).
  destruct (plan_body C _ _ w) as [w1 [a|e]]; simpl in *.
  - by rewrite (events_app _ _ _ Hpub).
  - erewrite events_app by (simpl; rewrite Hpub, <- app_assoc; reflexivity).
    rewrite TrackerFacts.publish_seq_snoc, Htr. split; [done|].
    apply Forall_app. split; [done|]. by repeat constructor.
Qed.

(** What a run publishes is what the subscriber of the session finds in its
    queue, after what was there. *)
Lemma subscriber_receives_run (plan_request : PlanRequest) (w : world) (q : nat) :
  let out := create_plan_with_progress C plan_request w in
  wf (tracker w) ->
  subscribers (tracker w) !! session_of C plan_request = Some q ->
  pending (tracker out.1) q = pending (tracker w) q ++ (events w out.1).*2.
Proof.
  intros out Hwf Hq. destruct (tracker_of_run plan_request w) as [Htr Hsid].
  fold out in Htr, Hsid.
  rewrite Htr, TrackerFacts.pending_publish_seq by done.
  by rewrite (TrackerFacts.delivered_to_session _ _ _ _ Hq Hsid).
Qed.

(** C1 (as amended).  Every progress_percent a run publishes is in
    [0,100].  On a run that returns, the values published are non-decreasing.
    On a run that fails, the last value published, that of the update of
    status "error", is 0, and the values before it are non-decreasing. *)
Theorem progress_percent_of_run (plan_request : PlanRequest) (w : world) :
  let out := create_plan_with_progress C plan_request w in
  let pcts := percents (events w out.1) in
  Forall in_range pcts /\
  match out.2 with
  | Ok _ => StronglySorted Z.le pcts
  | Raise _ => exists pre, pcts = pre ++ [0] /\ StronglySorted Z.le pre
  end.
Proof.
  intros out pcts. subst pcts out. rewrite create_plan_with_progress_eq.
  destruct (plan_body_shape (profile plan_request) (session_of C plan_request) w)
    as (evs & Hpub & _ & _ & Hout).
  destruct (plan_body C _ _ w) as [w1 [a|e]]; simpl in *.
  - rewrite (events_app _ _ _ Hpub), percents_shapes.
    eauto using body_outcome_range, body_outcome_sorted.
  - erewrite events_app by (simpl; rewrite Hpub, <- app_assoc; reflexivity).
    rewrite percents_app, percents_shapes. split.
    + apply Forall_app. split; [eauto using body_outcome_range|].
      repeat constructor; unfold in_range; simpl; lia.
    + eexists. split; [reflexivity|]. eauto using body_outcome_sorted.
Qed.



End Run.

(** *** Two runs *)

Lemma persona_fails_percents :
  percents (events start (create_plan_with_progress persona_fails request start).1)
  = [12; 25; 0].
Proof. vm_compute. reflexivity. Qed.

Lemma save_fails_percents :
  percents (events start (create_plan_with_progress save_fails request start).1)
  = [12; 25; 37; 50; 62; 75; 87; 100; 100; 0].
Proof. vm_compute. reflexivity. Qed.

Lemma all_succeed_percents :
  percents (events start (create_plan_with_progress all_succeed request start).1)
  = [12; 25; 37; 50; 62; 75; 87; 100; 100].
Proof. vm_compute. reflexivity. Qed.

(** Whichever agent raises, the run publishes the updates of the steps up
    to that agent's, and then the update of progress_percent 0. *)
Lemma agent_fails_percents (k : nat) (msg : string) :
  (1 <= k <= 8)%nat ->
  percents (events start
              (create_plan_with_progress (stub k msg "15,000-20,000 people")
                 request start).1)
  = take k [12; 25; 37; 50; 62; 75; 87; 100] ++ [0].
Proof.
  intros Hk. do 9 (destruct k as [|k]; [try lia; vm_compute; reflexivity|]). lia.
Qed.

(** A reach in words with a comma makes the analytics, and so the run,
    raise after the seventh step. *)
Example reach_in_words_fails :
  (create_plan_with_progress reach_in_words request start).2 =
    Raise (HTTPException 500 "invalid literal for int() with base 10: ''") /\
  percents (events start (create_plan_with_progress reach_in_words request start).1)
  = [12; 25; 37; 50; 62; 75; 87; 0].
Proof. vm_compute. split; reflexivity. Qed.

(** The subscriber of the session reads the drop to 0. *)
Example subscriber_sees_the_drop :
  progress_percent <$>
    pending (tracker (create_plan_with_progress persona_fails request start).1) 0
  = [12; 25; 0].
Proof. vm_compute. reflexivity. Qed.

(** C1, as stated, fails: when the second agent raises, the values
    published are 12, 25, 0. *)
Lemma failing_run_percent_drops :
  ~ StronglySorted Z.le
      (percents (events start
                   (create_plan_with_progress persona_fails request start).1)).
Proof.
  rewrite persona_fails_percents. intros H.
  apply StronglySorted_inv in H as [_ H].
  apply Forall_inv_tail, Forall_inv in H. lia.
Qed.




End PipelineFacts.
